(** * nanobrowser: the [get_dom_with_content_type] agent tool

    A shallow embedding of
    [nanobrowser/lib/agent/tools/get_dom_with_content_type.py]:
    the page script run by [get_filtered_text_content] over a small DOM
    store, and the Python tool [get_dom_with_content_type] in a state and
    exception monad over the browser page, the event bus, the file system
    and the calls made to the external collaborators. *)

From Stdlib Require Import ZArith Ascii String.
From stdpp Require Import base option list strings gmap.

Local Open Scope string_scope.

(** ** Strings as the two languages use them *)

(** JavaScript [Array.prototype.join]. *)
Fixpoint join (sep : string) (parts : list string) : string :=
  match parts with
  | [] => ""
  | [s] => s
  | s :: rest => s +:+ sep +:+ join sep rest
  end.

Definition starts_with_slash (s : string) : bool :=
  match s with
  | String c _ => Ascii.eqb c "/"%char
  | EmptyString => false
  end.

Fixpoint ends_with_slash (s : string) : bool :=
  match s with
  | EmptyString => false
  | String c EmptyString => Ascii.eqb c "/"%char
  | String _ rest => ends_with_slash rest
  end.

(** Python [os.path.join] on two components (posixpath). *)
Definition path_join (a b : string) : string :=
  if starts_with_slash b then b
  else if String.eqb a "" || ends_with_slash a then a +:+ b
  else a +:+ "/" +:+ b.

(** [sub] occurs in [s]: Python [sub in s], JavaScript [s.includes(sub)]. *)
Definition contains (s sub : string) : Prop :=
  ∃ before after, s = before +:+ sub +:+ after.

(** ** The page: a DOM store and the script that reads it *)

Module Dom.

(** The attributes of an element that the page script reads or writes. *)
Record Element := mkElement {
  tag : string;
  id : string;
  style_visibility : string;   (* element.style.visibility *)
  alt : string                 (* img.alt *)
}.

(** How a JavaScript evaluation ends. *)
Inductive completion (A : Type) :=
| Normal (a : A)
| Throw (msg : string).
Arguments Normal {A} a.
Arguments Throw {A} msg.

(** A page holds its elements in document order; an element reference is
    an index into that store.  [innerText] is computed by the browser from
    the rendered document, so both getters are functions of the store;
    [None] stands for [undefined] (the node is absent), and a getter may
    throw, since the script runs in the page's own script environment. *)
Record Page := mkPage {
  elements : list Element;
  body_innerText : list Element → completion (option string);
  documentElement_innerText : list Element → completion (option string)
}.

Definition with_elements (p : Page) (els : list Element) : Page :=
  {| elements := els;
     body_innerText := body_innerText p;
     documentElement_innerText := documentElement_innerText p |}.

Inductive selector :=
| ById (name : string)     (* '#name' *)
| ByTag (name : string).   (* 'name' *)

Definition selects (sel : selector) (e : Element) : bool :=
  match sel with
  | ById name => String.eqb (id e) name
  | ByTag name => String.eqb (tag e) name
  end.

Definition selects_at (sel : selector) (dom : list Element) (i : nat) : bool :=
  match dom !! i with
  | Some e => selects sel e
  | None => false
  end.

(** [document.querySelectorAll(sel)]: the references of the matching
    elements, in document order. *)
Definition querySelectorAll (sel : selector) (dom : list Element) : list nat :=
  filter (λ i, selects_at sel dom i) (seq 0 (length dom)).

(** [element.style.visibility = v] *)
Definition set_visibility (v : string) (e : Element) : Element :=
  {| tag := tag e; id := id e; style_visibility := v; alt := alt e |}.

(** One [originalStyles] entry: [{ element, originalStyle }]. *)
Definition StyleEntry : Type := nat * string.

(** The inner [elements.forEach]: record the visibility, then hide. *)
Fixpoint hide_elements (refs : list nat)
    (st : list StyleEntry * list Element) : list StyleEntry * list Element :=
  match refs with
  | [] => st
  | i :: rest =>
      match st.2 !! i with
      | Some e =>
          hide_elements rest
            ((st.1 ++ [(i, style_visibility e)])%list,
             alter (set_visibility "hidden") i st.2)
      | None => hide_elements rest st
      end
  end.

(** The outer [selectorsToFilter.forEach]. *)
Fixpoint hide_selectors (sels : list selector)
    (st : list StyleEntry * list Element) : list StyleEntry * list Element :=
  match sels with
  | [] => st
  | sel :: rest =>
      hide_selectors rest (hide_elements (querySelectorAll sel st.2) st)
  end.

(** [originalStyles.forEach(entry => ...)]: put the visibilities back. *)
Definition revert_styles (originalStyles : list StyleEntry)
    (dom : list Element) : list Element :=
  foldl (λ d entry, alter (set_visibility entry.2) entry.1 d) dom originalStyles.

(** JavaScript truthiness of a string-or-undefined value. *)
Definition truthy (v : option string) : bool :=
  match v with
  | Some s => negb (String.eqb s "")
  | None => false
  end.

Definition selectorsToFilter : list selector := [ById "agente-overlay"].

Definition alt_label : string := "Other Alt Texts in the page: ".

(** [let textContent = document?.body?.innerText
      || document?.documentElement?.innerText || ""] *)
Definition read_text (p : Page) (dom : list Element) : completion string :=
  match body_innerText p dom with
  | Throw m => Throw m
  | Normal b =>
      if truthy b then Normal (default "" b)
      else
        match documentElement_innerText p dom with
        | Throw m => Throw m
        | Normal r => Normal (if truthy r then default "" r else "")
        end
  end.

(** [Array.from(document.querySelectorAll('img')).map(img => img.alt)] *)
Definition image_alts (dom : list Element) : list string :=
  (λ i, default "" (alt <$> dom !! i)) <$> querySelectorAll (ByTag "img") dom.

(** The [originalStyles] array and the store once the first loop is done. *)
Definition hidden_state (p : Page) : list StyleEntry * list Element :=
  hide_selectors selectorsToFilter ([], elements p).

(** The store that the text and the images are read from. *)
Definition filtered_dom (p : Page) : list Element := (hidden_state p).2.

(** The arrow function handed to [page.evaluate]: it yields the page as the
    script leaves it and the completion of the script. *)
Definition filtered_text_script (p : Page) : Page * completion string :=
  let originalStyles := (hidden_state p).1 in
  let dom := filtered_dom p in
  match read_text p dom with
  | Throw m => (with_elements p dom, Throw m)
  | Normal textContent =>
      let altTexts := image_alts dom in
      let altTexts := alt_label +:+ join " " altTexts in
      let dom := revert_styles originalStyles dom in
      (with_elements p dom, Normal (textContent +:+ " " +:+ altTexts))
  end.

End Dom.

(** ** Python values, exceptions and events *)

(** The values the tool passes around: it returns
    [dict[str, Any] | str | None]. *)
#[warnings="-register-all"]
Inductive pyval :=
| PyNone
| PyBool (b : bool)
| PyInt (n : Z)
| PyStr (s : string)
| PyList (items : list pyval)
| PyDict (items : list (string * pyval)).

Definition is_None (v : pyval) : bool :=
  match v with
  | PyNone => true
  | _ => false
  end.

Inductive exn :=
| ValueError (msg : string)
| OSError (filename : string)       (* raised by [open] *)
| PlaywrightError (msg : string).   (* the page script threw *)

(** The members of [ExecutionState] and [Actors] that the tool uses. *)
Inductive ExecutionState := ACT_START | ACT_OK.
Inductive Actors := NAVIGATOR.

Record EventData := mkEventData {
  task_id : string;
  step : Z;
  tool_round : Z;
  tool : string;
  details : string
}.

Record Event := mkEvent {
  state : ExecutionState;
  actor : Actors;
  data : EventData
}.

(** The fields of [AgentContext] that carry plain data; its
    [browser_context] and [event_manager] live in the [World] below. *)
Record AgentContext := mkContext {
  context_task_id : string;
  context_step : Z;
  context_tool_round : Z;
  path_manager_logs : string
}.

(** ** The world and the monad of the tool *)

Inductive LogLevel := DEBUG | INFO.

(** What the tool does to its collaborators, in the order it does it. *)
Inductive Effect :=
| Emit (e : Event)                                  (* event_manager.emit *)
| WaitForNonLoadingDomState (timeout : Z)
| GetAccessibilityInfo (only_input_fields : bool) (log_dir : string)
| Evaluate                                          (* page.evaluate *)
| Log (level : LogLevel) (msg : string)
| LogElapsed.  (* the INFO record that carries the measured duration *)

Record World := mkWorld {
  current_page : option Dom.Page;  (* browser_context.get_current_page() *)
  can_write : string → bool;       (* whether open(path, 'w') succeeds *)
  files : gmap string string;      (* the contents of the files, by path *)
  trace : list Effect              (* the effects so far, oldest first *)
}.

Definition add_effect (e : Effect) (w : World) : World :=
  {| current_page := current_page w; can_write := can_write w;
     files := files w; trace := trace w ++ [e] |}%list.

Definition set_page (p : Dom.Page) (w : World) : World :=
  {| current_page := Some p; can_write := can_write w;
     files := files w; trace := trace w |}.

Definition set_files (fs : gmap string string) (w : World) : World :=
  {| current_page := current_page w; can_write := can_write w;
     files := fs; trace := trace w |}.

(** The events the bus has received, oldest first. *)
Fixpoint events (t : list Effect) : list Event :=
  match t with
  | [] => []
  | Emit e :: rest => e :: events rest
  | _ :: rest => events rest
  end.

Inductive outcome (A : Type) :=
| Return (a : A)
| Raise (e : exn).
Arguments Return {A} a.
Arguments Raise {A} e.

(** A computation changes the world and returns or raises; what it did
    before raising stays done. *)
Definition Py (A : Type) : Type := World → outcome A * World.

#[export] Instance Py_ret : MRet Py := λ A a w, (Return a, w).

#[export] Instance Py_bind : MBind Py := λ A B k m w,
  match m w with
  | (Return a, w') => k a w'
  | (Raise e, w') => (Raise e, w')
  end.

Definition raise {A : Type} (e : exn) : Py A := λ w, (Raise e, w).

Definition perform (e : Effect) : Py unit := λ w, (Return (), add_effect e w).

Definition emit (e : Event) : Py unit := perform (Emit e).

Definition Event_create (s : ExecutionState) (a : Actors) (d : EventData) : Event :=
  {| state := s; actor := a; data := d |}.

Definition get_current_page : Py (option Dom.Page) :=
  λ w, (Return (current_page w), w).

Definition wait_for_non_loading_dom_state (page : Dom.Page) (timeout : Z) : Py unit :=
  perform (WaitForNonLoadingDomState timeout).

(** [page.evaluate(script)]: the script runs on the page, which keeps what
    the script did to it; a script that throws raises in Python. *)
Definition evaluate (script : Dom.Page → Dom.Page * Dom.completion string)
    (page : Dom.Page) : Py string := λ w,
  let w := add_effect Evaluate w in
  let r := script page in
  match r.2 with
  | Dom.Normal s => (Return s, set_page r.1 w)
  | Dom.Throw m => (Raise (PlaywrightError m), set_page r.1 w)
  end.

(** [with open(path, 'w', encoding='utf-8') as f: f.write(content)] *)
Definition write_file (path content : string) : Py unit := λ w,
  if can_write w path then (Return (), set_files (<[path := content]> (files w)) w)
  else (Raise (OSError path), w).

Definition get_filtered_text_content (page : Dom.Page) : Py string :=
  text_content ← evaluate Dom.filtered_text_script page;
  mret text_content.

Definition no_active_page : string :=
  "No active page found. OpenURL command opens a new page.".

Definition advisory : string :=
  "Could not fetch input fields. Please consider trying with content_type all_fields.".

Section Tool.

(** The external accessibility routine, given by what it returns for a
    page, the [only_input_fields] flag and the log directory. *)
Variable accessibility_info : Dom.Page → bool → string → pyval.

Definition do_get_accessibility_info (page : Dom.Page)
    (only_input_fields : bool) (log_dir : string) : Py pyval := λ w,
  (Return (accessibility_info page only_input_fields log_dir),
   add_effect (GetAccessibilityInfo only_input_fields log_dir) w).

Definition tool_event (context : AgentContext) (s : ExecutionState)
    (msg : string) : Event :=
  Event_create s NAVIGATOR
    {| task_id := context_task_id context;
       step := context_step context;
       tool_round := context_tool_round context;
       tool := "get_dom_with_content_type";
       details := msg |}.

(** The [if]/[elif] chain: [inl v] is the [return v] inside the chain,
    [inr (user_success_message, extracted_data)] falls through to the
    statements after it. *)
Definition extract (context : AgentContext) (content_type : string)
    (page : Dom.Page) : Py (pyval + string * pyval) :=
  if String.eqb content_type "all_fields" then
    extracted_data ← do_get_accessibility_info page false (path_manager_logs context);
    mret (inr ("Fetched all the fields in the DOM", extracted_data))
  else if String.eqb content_type "input_fields" then
    perform (Log DEBUG "Fetching DOM for input_fields");;
    extracted_data ← do_get_accessibility_info page true (path_manager_logs context);
    if is_None extracted_data then mret (inl (PyStr advisory))
    else mret (inr ("Fetched only input fields in the DOM", extracted_data))
  else if String.eqb content_type "text_only" then
    perform (Log DEBUG "Fetching DOM for text_only");;
    text_content ← get_filtered_text_content page;
    write_file (path_join (path_manager_logs context) "text_only_dom.txt") text_content;;
    mret (inr ("Fetched the text content of the DOM", PyStr text_content))
  else
    raise (ValueError ("Unsupported content_type: " +:+ content_type)).

(** The tool.  The two readings of [time.time()] only feed the text of
    the INFO record, which appears in the trace as [LogElapsed]. *)
Definition get_dom_with_content_type (context : AgentContext)
    (content_type : string) : Py pyval :=
  emit (tool_event context ACT_START
          ("Executing Get DOM Command based on content_type: " +:+ content_type));;
  page ← get_current_page;
  match page with
  | None => raise (ValueError no_active_page)
  | Some page =>
      wait_for_non_loading_dom_state page 2000;;
      r ← extract context content_type page;
      match r with
      | inl early => mret early
      | inr (user_success_message, extracted_data) =>
          perform LogElapsed;;
          emit (tool_event context ACT_OK user_success_message);;
          mret extracted_data
      end
  end.

End Tool.

(** ** Repeated calls and sample inputs *)

Section Repeat.

Variable accessibility_info : Dom.Page → bool → string → pyval.

(** [n] calls with [content_type='text_only'], one after the other: the
    outcomes in call order and the world after the last call. *)
Fixpoint call_text_only (context : AgentContext) (n : nat) (w : World)
    : list (outcome pyval) * World :=
  match n with
  | O => ([], w)
  | S k =>
      let r := get_dom_with_content_type accessibility_info context "text_only" w in
      let rest := call_text_only context k r.2 in
      (r.1 :: rest.1, rest.2)
  end.

End Repeat.

(** The path of the debug artifact. *)
Definition text_only_dom (context : AgentContext) : string :=
  path_join (path_manager_logs context) "text_only_dom.txt".

Definition start_event (context : AgentContext) (content_type : string) : Event :=
  tool_event context ACT_START
    ("Executing Get DOM Command based on content_type: " +:+ content_type).

Definition ok_event (context : AgentContext) (msg : string) : Event :=
  tool_event context ACT_OK msg.

(** The trace of the text path once the page script has run. *)
Definition text_trace (context : AgentContext) (w : World) : list Effect :=
  (trace w ++
    [Emit (start_event context "text_only");
     WaitForNonLoadingDomState 2000;
     Log DEBUG "Fetching DOM for text_only";
     Evaluate])%list.

(** The visibility of every element of the current page, in document
    order. *)
Definition visibilities (w : World) : option (list string) :=
  (λ p, Dom.style_visibility <$> Dom.elements p) <$> current_page w.

(** What the first loop of the page script does to one element. *)
Definition hide_if_overlay (e : Dom.Element) : Dom.Element :=
  if Dom.selects (Dom.ById "agente-overlay") e
  then Dom.set_visibility "hidden" e else e.

(** The [originalStyles] entry of the element behind the reference [i]. *)
Definition original_style (dom : list Dom.Element) (i : nat) : Dom.StyleEntry :=
  (i, default "" (Dom.style_visibility <$> dom !! i)).

(** The [user_success_message] of each supported content type. *)
Definition success_messages : list string :=
  ["Fetched all the fields in the DOM";
   "Fetched only input fields in the DOM";
   "Fetched the text content of the DOM"].

Module Sample.

Definition context : AgentContext :=
  {| context_task_id := "task-1"; context_step := 3;
     context_tool_round := 0; path_manager_logs := "logs" |}.

Definition overlay : Dom.Element :=
  {| Dom.tag := "div"; Dom.id := "agente-overlay";
     Dom.style_visibility := "visible"; Dom.alt := "" |}.

Definition logo : Dom.Element :=
  {| Dom.tag := "img"; Dom.id := "logo";
     Dom.style_visibility := ""; Dom.alt := "Logo" |}.

(** Body text "Hello", one image, the overlay shown. *)
Definition hello_page : Dom.Page :=
  {| Dom.elements := [overlay; logo];
     Dom.body_innerText := λ _, Dom.Normal (Some "Hello");
     Dom.documentElement_innerText := λ _, Dom.Normal (Some "Hello") |}.

(** No body, no root text, no image. *)
Definition blank_page : Dom.Page :=
  {| Dom.elements := [];
     Dom.body_innerText := λ _, Dom.Normal None;
     Dom.documentElement_innerText := λ _, Dom.Normal (Some "") |}.

(** A page whose [innerText] getter on the body throws. *)
Definition throwing_page : Dom.Page :=
  {| Dom.elements := [overlay; logo];
     Dom.body_innerText := λ _, Dom.Throw "innerText";
     Dom.documentElement_innerText := λ _, Dom.Normal (Some "Hello") |}.


(** A page with a body that renders no text under a root that does. *)
Definition root_text_page : Dom.Page :=
  {| Dom.elements := [overlay; logo];
     Dom.body_innerText := λ _, Dom.Normal (Some "");
     Dom.documentElement_innerText := λ _, Dom.Normal (Some "Title") |}.

(** A page with body text whose root text getter throws. *)
Definition root_throwing_page : Dom.Page :=
  {| Dom.elements := [overlay; logo];
     Dom.body_innerText := λ _, Dom.Normal (Some "Hello");
     Dom.documentElement_innerText := λ _, Dom.Throw "innerText" |}.

(** An accessibility routine that finds no field at all. *)
Definition no_fields : Dom.Page → bool → string → pyval := λ _ _ _, PyNone.

(** An accessibility routine that finds no input field, and one button
    when asked for all the fields. *)
Definition one_button : Dom.Page → bool → string → pyval := λ _ only_input_fields _,
  if only_input_fields then PyNone
  else PyDict [("role", PyStr "button"); ("name", PyStr "Go")].

Definition world_with (page : option Dom.Page) (writable : bool) : World :=
  {| current_page := page; can_write := λ _, writable; files := ∅; trace := [] |}.

End Sample.

(** * Properties *)

(** ** The page script *)

Module DomFacts.
Import Dom.

Lemma set_visibility_own (e : Element) :
  set_visibility (style_visibility e) e = e.
Proof. by destruct e. Qed.

Lemma set_visibility_twice (v v' : string) (e : Element) :
  set_visibility v (set_visibility v' e) = set_visibility v e.
Proof. done. Qed.

Lemma alter_fixed (f : Element → Element) (dom : list Element) (i : nat) (e : Element) :
  dom !! i = Some e → f e = e → alter f i dom = dom.
Proof.
  intros Hi Hf. apply list_eq. intros j.
  destruct (decide (i = j)) as [<-|Hne].
  - rewrite list_lookup_alter_eq, Hi. simpl. by rewrite Hf.
  - by rewrite list_lookup_alter_ne.
Qed.

(** The accumulator of the first loop only grows at its end. *)
Lemma hide_elements_acc (refs : list nat) (orig : list StyleEntry) (dom : list Element) :
  hide_elements refs (orig, dom)
  = ((orig ++ (hide_elements refs ([], dom)).1)%list, (hide_elements refs ([], dom)).2).
Proof.
  revert orig dom. induction refs as [|i rest IH]; intros orig dom; simpl.
  - by rewrite app_nil_r.
  - destruct (dom !! i) as [e|]; [|apply IH].
    rewrite (IH (orig ++ _)%list), (IH [_]). simpl. by rewrite <- app_assoc.
Qed.

(** Hiding the elements of [refs] does not see, and does not undo, a
    change made to an element outside [refs]. *)
Lemma hide_elements_other (f : Element → Element) (refs : list nat) (i : nat)
    (dom : list Element) :
  i ∉ refs →
  hide_elements refs ([], alter f i dom)
  = ((hide_elements refs ([], dom)).1, alter f i (hide_elements refs ([], dom)).2).
Proof.
  revert dom. induction refs as [|j rest IH]; intros dom Hi; simpl; [done|].
  apply not_elem_of_cons in Hi as [Hij Hi].
  rewrite list_lookup_alter_ne by done.
  destruct (dom !! j) as [e|]; [|by apply IH].
  rewrite !(hide_elements_acc rest [_]).
  rewrite list_alter_alter_ne by done.
  by rewrite IH.
Qed.

Lemma revert_hide_elements (refs : list nat) (dom : list Element) :
  NoDup refs →
  revert_styles (hide_elements refs ([], dom)).1 (hide_elements refs ([], dom)).2 = dom.
Proof.
  revert dom. induction refs as [|i rest IH]; intros dom Hnd; simpl; [done|].
  apply NoDup_cons in Hnd as [Hi Hnd].
  destruct (dom !! i) as [e|] eqn:He; [|by apply IH].
  rewrite hide_elements_acc. simpl.
  rewrite (hide_elements_other _ rest i dom Hi). simpl.
  unfold revert_styles in *. simpl.
  rewrite list_alter_alter_eq.
  pose proof (hide_elements_other
    (set_visibility (style_visibility e) ∘ set_visibility "hidden") rest i dom Hi) as Ho.
  rewrite (alter_fixed _ dom i e He) in Ho by (by destruct e).
  specialize (IH dom Hnd). rewrite Ho in IH. exact IH.
Qed.

Lemma querySelectorAll_NoDup (sel : selector) (dom : list Element) :
  NoDup (querySelectorAll sel dom).
Proof. apply NoDup_filter, NoDup_seq. Qed.

(** The scoped mutation is reverted when the script reaches its last loop. *)
Lemma revert_hidden_state (p : Page) :
  revert_styles (hidden_state p).1 (filtered_dom p) = elements p.
Proof.
  unfold filtered_dom, hidden_state, selectorsToFilter. simpl.
  apply revert_hide_elements, querySelectorAll_NoDup.
Qed.

Lemma selects_at_alter (sel : selector) (v : string) (i j : nat) (dom : list Element) :
  selects_at sel (alter (set_visibility v) i dom) j = selects_at sel dom j.
Proof.
  unfold selects_at. rewrite list_lookup_alter.
  case_decide as Hij; [subst j|done].
  destruct (dom !! i) as [e|]; simpl; [|done]. by destruct sel.
Qed.

Lemma querySelectorAll_alter (sel : selector) (v : string) (i : nat) (dom : list Element) :
  querySelectorAll sel (alter (set_visibility v) i dom) = querySelectorAll sel dom.
Proof.
  unfold querySelectorAll. rewrite length_alter.
  apply list_filter_iff. intros j. by rewrite selects_at_alter.
Qed.

(** Hiding an element changes neither which images there are nor their
    alternative texts. *)
Lemma image_alts_alter (v : string) (i : nat) (dom : list Element) :
  image_alts (alter (set_visibility v) i dom) = image_alts dom.
Proof.
  unfold image_alts. rewrite querySelectorAll_alter.
  apply list_fmap_ext. intros _ j _. rewrite list_lookup_alter.
  case_decide as Hij; [subst j|done]. by destruct (dom !! i).
Qed.

Lemma image_alts_hide_elements (refs : list nat) (st : list StyleEntry * list Element) :
  image_alts (hide_elements refs st).2 = image_alts st.2.
Proof.
  revert st. induction refs as [|i rest IH]; intros st; simpl; [done|].
  destruct (st.2 !! i); rewrite IH; [|done]. apply image_alts_alter.
Qed.

Lemma image_alts_filtered (p : Page) :
  image_alts (filtered_dom p) = image_alts (elements p).
Proof.
  unfold filtered_dom, hidden_state, selectorsToFilter. simpl.
  apply image_alts_hide_elements.
Qed.

Lemma with_elements_same (p : Page) : with_elements p (elements p) = p.
Proof. by destruct p. Qed.

(** What the script does when reading the text completes. *)
Lemma filtered_text_script_normal (p : Page) (t : string) :
  read_text p (filtered_dom p) = Normal t →
  filtered_text_script p
  = (p, Normal (t +:+ " " +:+ alt_label +:+ join " " (image_alts (elements p)))).
Proof.
  intros Ht. unfold filtered_text_script. rewrite Ht.
  by rewrite revert_hidden_state, with_elements_same, image_alts_filtered.
Qed.

(** What the script does when reading the text throws: the last loop is
    never reached. *)
Lemma filtered_text_script_throw (p : Page) (m : string) :
  read_text p (filtered_dom p) = Throw m →
  filtered_text_script p = (with_elements p (filtered_dom p), Throw m).
Proof. intros Ht. unfold filtered_text_script. by rewrite Ht. Qed.

End DomFacts.

(** ** The tool, path by path *)

Section ToolFacts.

Variable accessibility_info : Dom.Page → bool → string → pyval.
Variable context : AgentContext.

Local Notation "'tool'" := (get_dom_with_content_type accessibility_info context).
Local Notation "'logs'" := (path_manager_logs context).
Local Notation "'ok_event'" := (ok_event context).
Local Notation "'text_trace'" := (text_trace context).

Ltac run :=
  unfold get_dom_with_content_type, extract, get_filtered_text_content,
    do_get_accessibility_info, evaluate, write_file, emit, perform, raise,
    wait_for_non_loading_dom_state, get_current_page,
    mbind, mret, Py_bind, Py_ret; simpl.

Ltac tidy := unfold add_effect, set_page, set_files; simpl; rewrite <- ?app_assoc; simpl.

(** Without a page the tool raises right after its first event. *)
Lemma tool_no_page (content_type : string) (w : World) :
  current_page w = None →
  tool content_type w
  = (Raise (ValueError no_active_page),
     add_effect (Emit (start_event context content_type)) w).
Proof. intros Hp. run. by rewrite Hp. Qed.

Lemma tool_all_fields (w : World) (p : Dom.Page) :
  current_page w = Some p →
  tool "all_fields" w
  = (Return (accessibility_info p false logs),
     {| current_page := Some p; can_write := can_write w; files := files w;
        trace := trace w ++
          [Emit (start_event context "all_fields");
           WaitForNonLoadingDomState 2000;
           GetAccessibilityInfo false logs;
           LogElapsed;
           Emit (ok_event "Fetched all the fields in the DOM")] |}%list).
Proof. intros Hp. run. rewrite Hp. tidy. by rewrite Hp. Qed.

Lemma tool_input_fields (w : World) (p : Dom.Page) :
  current_page w = Some p →
  tool "input_fields" w
  = (if is_None (accessibility_info p true logs)
     then (Return (PyStr advisory),
       {| current_page := Some p; can_write := can_write w; files := files w;
          trace := trace w ++
            [Emit (start_event context "input_fields");
             WaitForNonLoadingDomState 2000;
             Log DEBUG "Fetching DOM for input_fields";
             GetAccessibilityInfo true logs] |}%list)
     else (Return (accessibility_info p true logs),
       {| current_page := Some p; can_write := can_write w; files := files w;
          trace := trace w ++
            [Emit (start_event context "input_fields");
             WaitForNonLoadingDomState 2000;
             Log DEBUG "Fetching DOM for input_fields";
             GetAccessibilityInfo true logs;
             LogElapsed;
             Emit (ok_event "Fetched only input fields in the DOM")] |}%list)).
Proof.
  intros Hp. run. rewrite Hp.
  destruct (is_None _); tidy; by rewrite Hp.
Qed.

Lemma tool_unsupported (content_type : string) (w : World) (p : Dom.Page) :
  current_page w = Some p →
  content_type ≠ "all_fields" → content_type ≠ "input_fields" →
  content_type ≠ "text_only" →
  tool content_type w
  = (Raise (ValueError ("Unsupported content_type: " +:+ content_type)),
     {| current_page := Some p; can_write := can_write w; files := files w;
        trace := trace w ++
          [Emit (start_event context content_type);
           WaitForNonLoadingDomState 2000] |}%list).
Proof.
  intros Hp Ha Hi Ht. run. rewrite Hp.
  apply String.eqb_neq in Ha, Hi, Ht. rewrite Ha, Hi, Ht.
  tidy. by rewrite Hp.
Qed.

Lemma tool_text_only (w : World) (p : Dom.Page) :
  current_page w = Some p →
  tool "text_only" w
  = match (Dom.filtered_text_script p).2 with
    | Dom.Throw m =>
        (Raise (PlaywrightError m),
         {| current_page := Some (Dom.filtered_text_script p).1;
            can_write := can_write w; files := files w;
            trace := text_trace w |})
    | Dom.Normal s =>
        if can_write w (text_only_dom context)
        then (Return (PyStr s),
          {| current_page := Some (Dom.filtered_text_script p).1;
             can_write := can_write w;
             files := <[text_only_dom context := s]> (files w);
             trace := (text_trace w ++
               [LogElapsed;
                Emit (ok_event "Fetched the text content of the DOM")])%list |})
        else (Raise (OSError (text_only_dom context)),
          {| current_page := Some (Dom.filtered_text_script p).1;
             can_write := can_write w; files := files w;
             trace := text_trace w |})
    end.
Proof.
  intros Hp. run. rewrite Hp. unfold text_trace, text_only_dom.
  destruct (Dom.filtered_text_script p).2; tidy; [|done].
  destruct (can_write w _); tidy; done.
Qed.

End ToolFacts.

Lemma events_app (t1 t2 : list Effect) :
  events (t1 ++ t2) = (events t1 ++ events t2)%list.
Proof.
  induction t1 as [|e t1 IH]; simpl; [done|].
  destruct e; simpl; by rewrite ?IH.
Qed.

(** ** Failing calls *)

(** C1, as amended: with no active page, whatever the content type, the
    call raises the no-active-page error after emitting the ACT_START
    event, which is the only thing it does: the bus receives that one
    event, no file is written and there is still no page. *)
Theorem no_active_page_raises_after_start
    (accessibility_info : Dom.Page → bool → string → pyval)
    (context : AgentContext) (content_type : string) (w : World) :
  current_page w = None →
  let r := get_dom_with_content_type accessibility_info context content_type w in
  r.1 = Raise (ValueError no_active_page)
  ∧ trace r.2 = (trace w ++ [Emit (start_event context content_type)])%list
  ∧ events (trace r.2)
    = (events (trace w) ++ [start_event context content_type])%list
  ∧ files r.2 = files w
  ∧ current_page r.2 = None.
Proof.
  intros Hp r. subst r. rewrite tool_no_page by done. simpl.
  by rewrite events_app.
Qed.

Lemma no_active_page_raises_after_start_witness :
  current_page (Sample.world_with None true) = None
  ∧ let r := get_dom_with_content_type Sample.no_fields Sample.context
               "all_fields" (Sample.world_with None true) in
    r.1 = Raise (ValueError no_active_page)
    ∧ trace r.2 = [Emit (start_event Sample.context "all_fields")]
    ∧ events (trace r.2) = [start_event Sample.context "all_fields"]
    ∧ files r.2 = ∅
    ∧ current_page r.2 = None.
Proof.
  split; [reflexivity|].
  apply (no_active_page_raises_after_start Sample.no_fields Sample.context
           "all_fields" (Sample.world_with None true)).
  reflexivity.
Defined.

(** C1, as stated, fails: a [text_only] call with no active page raises,
    but the event bus has received an event by then. *)
Lemma no_active_page_emits_an_event :
  ¬ (let w := Sample.world_with None true in
     let r := get_dom_with_content_type Sample.no_fields Sample.context
                "text_only" w in
     r.1 = Raise (ValueError no_active_page)
     ∧ events (trace r.2) = events (trace w)).
Proof. vm_compute. intros [_ H]. discriminate H. Qed.

(** C2, as amended: with an active page and a content type that is none
    of the three, the call raises the unsupported-content-type error once
    the ACT_START event is emitted and the readiness gate has been waited
    on; nothing else happens: no extractor runs, no file is written, the
    page is as it was and no ACT_OK event follows. *)
Theorem unsupported_content_type_raises_after_wait
    (accessibility_info : Dom.Page → bool → string → pyval)
    (context : AgentContext) (content_type : string) (w : World) (p : Dom.Page) :
  current_page w = Some p →
  content_type ≠ "all_fields" → content_type ≠ "input_fields" →
  content_type ≠ "text_only" →
  let r := get_dom_with_content_type accessibility_info context content_type w in
  r.1 = Raise (ValueError ("Unsupported content_type: " +:+ content_type))
  ∧ trace r.2 = (trace w ++ [Emit (start_event context content_type);
                             WaitForNonLoadingDomState 2000])%list
  ∧ files r.2 = files w
  ∧ current_page r.2 = Some p.
Proof.
  intros Hp Ha Hi Ht r. subst r.
  by rewrite (tool_unsupported _ _ _ _ p).
Qed.

Lemma unsupported_content_type_raises_after_wait_witness :
  let w := Sample.world_with (Some Sample.hello_page) true in
  let r := get_dom_with_content_type Sample.no_fields Sample.context "html" w in
  r.1 = Raise (ValueError "Unsupported content_type: html")
  ∧ trace r.2 = [Emit (start_event Sample.context "html");
                 WaitForNonLoadingDomState 2000]
  ∧ files r.2 = ∅
  ∧ current_page r.2 = Some Sample.hello_page.
Proof.
  apply (unsupported_content_type_raises_after_wait Sample.no_fields
           Sample.context "html"
           (Sample.world_with (Some Sample.hello_page) true) Sample.hello_page);
    [reflexivity | discriminate..].
Defined.

(** C2, as stated, fails: for the content type "html" on an active page
    the error is raised, but the readiness gate has been invoked first. *)
Lemma unsupported_content_type_waits_first :
  ¬ (let w := Sample.world_with (Some Sample.hello_page) true in
     let r := get_dom_with_content_type Sample.no_fields Sample.context "html" w in
     r.1 = Raise (ValueError "Unsupported content_type: html")
     ∧ WaitForNonLoadingDomState 2000 ∉ trace r.2).
Proof.
  intros [_ H]. apply H. vm_compute trace.
  apply list_elem_of_further, list_elem_of_here.
Qed.

(** C3: at a page without input fields the [input_fields] call returns the
    advisory string from inside the chain, so the bus has received the
    ACT_START event and nothing after it: no ACT_OK event. *)
Theorem input_fields_advisory_skips_completion :
  let w := Sample.world_with (Some Sample.hello_page) true in
  let r := get_dom_with_content_type Sample.one_button Sample.context
             "input_fields" w in
  r.1 = Return (PyStr advisory)
  ∧ events (trace r.2) = [start_event Sample.context "input_fields"]
  ∧ ∀ e, e ∈ events (trace r.2) → state e ≠ ACT_OK.
Proof.
  vm_compute. split; [done|]. split; [done|].
  intros e He. apply list_elem_of_singleton in He. by subst e.
Qed.

(** ** The text path *)

(** The script returns normally exactly when reading the text does, and
    then it leaves the page as it found it. *)
Lemma script_normal_inv (p : Dom.Page) (s : string) :
  (Dom.filtered_text_script p).2 = Dom.Normal s →
  ∃ t, Dom.read_text p (Dom.filtered_dom p) = Dom.Normal t
       ∧ Dom.filtered_text_script p = (p, Dom.Normal s).
Proof.
  destruct (Dom.read_text p (Dom.filtered_dom p)) as [t|m] eqn:Ht.
  - rewrite (DomFacts.filtered_text_script_normal p t Ht). simpl.
    intros [= <-]. by exists t.
  - by rewrite (DomFacts.filtered_text_script_throw p m Ht).
Qed.

(** C4, as amended: when the page script completes and the debug artifact
    cannot be opened for writing, the call raises that error instead of
    returning the text; the bus has received the ACT_START event only, no
    file has changed and the page is as it was. *)
Theorem write_failure_is_raised
    (accessibility_info : Dom.Page → bool → string → pyval)
    (context : AgentContext) (w : World) (p : Dom.Page) (t : string) :
  current_page w = Some p →
  Dom.read_text p (Dom.filtered_dom p) = Dom.Normal t →
  can_write w (text_only_dom context) = false →
  let r := get_dom_with_content_type accessibility_info context "text_only" w in
  r.1 = Raise (OSError (text_only_dom context))
  ∧ events (trace r.2)
    = (events (trace w) ++ [start_event context "text_only"])%list
  ∧ files r.2 = files w
  ∧ current_page r.2 = Some p.
Proof.
  intros Hp Ht Hw r. subst r.
  rewrite (tool_text_only _ _ _ p Hp).
  rewrite (DomFacts.filtered_text_script_normal p t Ht). simpl.
  rewrite Hw. simpl. unfold text_trace. by rewrite events_app.
Qed.

Lemma write_failure_is_raised_witness :
  let w := Sample.world_with (Some Sample.hello_page) false in
  let r := get_dom_with_content_type Sample.no_fields Sample.context
             "text_only" w in
  r.1 = Raise (OSError "logs/text_only_dom.txt")
  ∧ events (trace r.2) = [start_event Sample.context "text_only"]
  ∧ files r.2 = ∅
  ∧ current_page r.2 = Some Sample.hello_page.
Proof.
  apply (write_failure_is_raised Sample.no_fields Sample.context
           (Sample.world_with (Some Sample.hello_page) false)
           Sample.hello_page "Hello"); reflexivity.
Defined.

(** C4, as stated, fails: on the same page the call returns the text when
    the artifact can be written and does not when it cannot. *)
Lemma write_failure_changes_the_result :
  ¬ ((get_dom_with_content_type Sample.no_fields Sample.context "text_only"
        (Sample.world_with (Some Sample.hello_page) false)).1
     = (get_dom_with_content_type Sample.no_fields Sample.context "text_only"
          (Sample.world_with (Some Sample.hello_page) true)).1).
Proof. vm_compute. discriminate. Qed.

(** C5: on a page whose body text is "Hello" and whose only image has the
    alternative text "Logo", a [text_only] call returns
    "Hello Other Alt Texts in the page: Logo" and leaves exactly that
    string in [text_only_dom.txt] of the log directory. *)
Theorem text_only_hello_logo
    (accessibility_info : Dom.Page → bool → string → pyval)
    (context : AgentContext) (w : World) (p : Dom.Page) :
  current_page w = Some p →
  Dom.body_innerText p (Dom.filtered_dom p) = Dom.Normal (Some "Hello") →
  Dom.image_alts (Dom.elements p) = ["Logo"] →
  can_write w (path_join (path_manager_logs context) "text_only_dom.txt") = true →
  let r := get_dom_with_content_type accessibility_info context "text_only" w in
  r.1 = Return (PyStr "Hello Other Alt Texts in the page: Logo")
  ∧ files r.2 !! path_join (path_manager_logs context) "text_only_dom.txt"
    = Some "Hello Other Alt Texts in the page: Logo"
  ∧ files r.2
    = <[path_join (path_manager_logs context) "text_only_dom.txt"
        := "Hello Other Alt Texts in the page: Logo"]> (files w).
Proof.
  intros Hp Hb Hi Hw r. subst r.
  assert (Dom.read_text p (Dom.filtered_dom p) = Dom.Normal "Hello") as Ht.
  { unfold Dom.read_text. by rewrite Hb. }
  rewrite (tool_text_only _ _ _ p Hp).
  rewrite (DomFacts.filtered_text_script_normal p _ Ht), Hi. simpl.
  unfold text_only_dom. rewrite Hw. simpl.
  by rewrite lookup_insert_eq.
Qed.

Lemma text_only_hello_logo_witness :
  let w := Sample.world_with (Some Sample.hello_page) true in
  let r := get_dom_with_content_type Sample.no_fields Sample.context
             "text_only" w in
  r.1 = Return (PyStr "Hello Other Alt Texts in the page: Logo")
  ∧ files r.2 !! "logs/text_only_dom.txt"
    = Some "Hello Other Alt Texts in the page: Logo"
  ∧ files r.2
    = <["logs/text_only_dom.txt"
        := "Hello Other Alt Texts in the page: Logo"]> ∅.
Proof.
  apply (text_only_hello_logo Sample.no_fields Sample.context
           (Sample.world_with (Some Sample.hello_page) true)
           Sample.hello_page); reflexivity.
Defined.

(** C6, as amended: when the page script runs to its end, that is when
    reading the text does not throw, every element hidden for the
    extraction has its visibility back after the call, and the page is
    the page of before the call, whether or not the artifact is then
    written. *)
Theorem visibility_restored_when_script_completes
    (accessibility_info : Dom.Page → bool → string → pyval)
    (context : AgentContext) (w : World) (p : Dom.Page) (t : string) :
  current_page w = Some p →
  Dom.read_text p (Dom.filtered_dom p) = Dom.Normal t →
  let r := get_dom_with_content_type accessibility_info context "text_only" w in
  current_page r.2 = Some p ∧ visibilities r.2 = visibilities w.
Proof.
  intros Hp Ht r. subst r.
  rewrite (tool_text_only _ _ _ p Hp).
  rewrite (DomFacts.filtered_text_script_normal p t Ht). simpl.
  unfold visibilities.
  destruct (can_write w _); simpl; by rewrite Hp.
Qed.

Lemma visibility_restored_when_script_completes_witness :
  let w := Sample.world_with (Some Sample.hello_page) true in
  let r := get_dom_with_content_type Sample.no_fields Sample.context
             "text_only" w in
  current_page r.2 = Some Sample.hello_page
  ∧ visibilities r.2 = Some ["visible"; ""].
Proof.
  apply (visibility_restored_when_script_completes Sample.no_fields
           Sample.context (Sample.world_with (Some Sample.hello_page) true)
           Sample.hello_page "Hello"); reflexivity.
Defined.

(** C6, as stated, fails: on a page whose body text getter throws, the
    overlay that was visible before the call is hidden after it. *)
Lemma visibility_not_restored_when_script_throws :
  ¬ (let w := Sample.world_with (Some Sample.throwing_page) true in
     let r := get_dom_with_content_type Sample.no_fields Sample.context
                "text_only" w in
     visibilities r.2 = visibilities w).
Proof. vm_compute. discriminate. Qed.

Lemma append_assoc (a b c : string) : (a +:+ b) +:+ c = a +:+ b +:+ c.
Proof.
  induction a as [|x a IH]; [reflexivity|].
  change (String x ((a +:+ b) +:+ c) = String x (a +:+ b +:+ c)).
  by rewrite IH.
Qed.

Lemma text_never_empty (t rest : string) : t +:+ " " +:+ rest ≠ "".
Proof. by destruct t. Qed.

Lemma text_contains_label (t alts : string) :
  contains (t +:+ " " +:+ Dom.alt_label +:+ alts) Dom.alt_label.
Proof. exists (t +:+ " "), alts. by rewrite append_assoc. Qed.

(** With neither a body text nor a root text the script reads "". *)
Lemma read_text_blank (p : Dom.Page) (dom : list Dom.Element) (b r : option string) :
  Dom.body_innerText p dom = Dom.Normal b → Dom.truthy b = false →
  Dom.documentElement_innerText p dom = Dom.Normal r → Dom.truthy r = false →
  Dom.read_text p dom = Dom.Normal "".
Proof.
  intros Hb Hbf Hr Hrf. unfold Dom.read_text. by rewrite Hb, Hbf, Hr, Hrf.
Qed.

(** What a [text_only] call does when the script completes and the
    artifact can be written. *)
Lemma tool_text_only_ok
    (accessibility_info : Dom.Page → bool → string → pyval)
    (context : AgentContext) (w : World) (p : Dom.Page) (s : string) :
  current_page w = Some p →
  Dom.filtered_text_script p = (p, Dom.Normal s) →
  can_write w (text_only_dom context) = true →
  get_dom_with_content_type accessibility_info context "text_only" w
  = (Return (PyStr s),
     {| current_page := Some p; can_write := can_write w;
        files := <[text_only_dom context := s]> (files w);
        trace := (text_trace context w ++
          [LogElapsed;
           Emit (ok_event context "Fetched the text content of the DOM")])%list |}).
Proof.
  intros Hp Hs Hw. rewrite (tool_text_only _ _ _ p Hp), Hs. simpl. by rewrite Hw.
Qed.

(** A [text_only] call that returns had a page whose script completes and
    an artifact that can be written. *)
Lemma tool_text_only_returns_inv
    (accessibility_info : Dom.Page → bool → string → pyval)
    (context : AgentContext) (w w' : World) (v : pyval) :
  get_dom_with_content_type accessibility_info context "text_only" w
  = (Return v, w') →
  ∃ p s, current_page w = Some p
         ∧ Dom.filtered_text_script p = (p, Dom.Normal s)
         ∧ can_write w (text_only_dom context) = true
         ∧ v = PyStr s.
Proof.
  destruct (current_page w) as [p|] eqn:Hp.
  - rewrite (tool_text_only _ _ _ p Hp).
    destruct (Dom.filtered_text_script p).2 as [s|m] eqn:Hs; [|done].
    destruct (script_normal_inv p s Hs) as (t & _ & Hscript).
    destruct (can_write w _) eqn:Hw; [|done].
    intros [= <- _]. by exists p, s.
  - by rewrite tool_no_page.
Qed.

(** ** The accessibility paths *)

(** C7: with an active page, an [all_fields] call asks the accessibility
    routine once, with [only_input_fields=False] and the log directory,
    and returns what the routine returned, as it is. *)
Theorem all_fields_delegates
    (accessibility_info : Dom.Page → bool → string → pyval)
    (context : AgentContext) (w : World) (p : Dom.Page) :
  current_page w = Some p →
  let r := get_dom_with_content_type accessibility_info context "all_fields" w in
  r.1 = Return (accessibility_info p false (path_manager_logs context))
  ∧ trace r.2
    = (trace w ++
        [Emit (start_event context "all_fields");
         WaitForNonLoadingDomState 2000;
         GetAccessibilityInfo false (path_manager_logs context);
         LogElapsed;
         Emit (ok_event context "Fetched all the fields in the DOM")])%list.
Proof. intros Hp r. subst r. by rewrite (tool_all_fields _ _ _ p Hp). Qed.

Lemma all_fields_delegates_witness :
  let w := Sample.world_with (Some Sample.hello_page) true in
  let r := get_dom_with_content_type Sample.one_button Sample.context
             "all_fields" w in
  r.1 = Return (PyDict [("role", PyStr "button"); ("name", PyStr "Go")])
  ∧ trace r.2
    = [Emit (start_event Sample.context "all_fields");
       WaitForNonLoadingDomState 2000;
       GetAccessibilityInfo false "logs";
       LogElapsed;
       Emit (ok_event Sample.context "Fetched all the fields in the DOM")].
Proof.
  apply (all_fields_delegates Sample.one_button Sample.context
           (Sample.world_with (Some Sample.hello_page) true) Sample.hello_page).
  reflexivity.
Defined.

(** C9: with an active page, when the accessibility routine returns [None]
    for all the fields, an [all_fields] call returns [None], not the
    advisory string, and the bus receives ACT_START and then ACT_OK; the
    advisory string is what an [input_fields] call returns when the
    routine returns [None] for the input fields. *)
Theorem all_fields_none_is_returned
    (accessibility_info : Dom.Page → bool → string → pyval)
    (context : AgentContext) (w : World) (p : Dom.Page) :
  current_page w = Some p →
  accessibility_info p false (path_manager_logs context) = PyNone →
  let r := get_dom_with_content_type accessibility_info context "all_fields" w in
  r.1 = Return PyNone
  ∧ r.1 ≠ Return (PyStr advisory)
  ∧ events (trace r.2)
    = (events (trace w) ++
        [start_event context "all_fields";
         ok_event context "Fetched all the fields in the DOM"])%list
  ∧ (accessibility_info p true (path_manager_logs context) = PyNone →
     (get_dom_with_content_type accessibility_info context "input_fields" w).1
     = Return (PyStr advisory)).
Proof.
  intros Hp Hnone r. subst r.
  rewrite (tool_all_fields _ _ _ p Hp), Hnone. simpl.
  rewrite events_app. repeat split; [done|].
  intros Hin. rewrite (tool_input_fields _ _ _ p Hp), Hin. done.
Qed.

Lemma all_fields_none_is_returned_witness :
  let w := Sample.world_with (Some Sample.hello_page) true in
  let r := get_dom_with_content_type Sample.no_fields Sample.context
             "all_fields" w in
  r.1 = Return PyNone
  ∧ r.1 ≠ Return (PyStr advisory)
  ∧ events (trace r.2)
    = [start_event Sample.context "all_fields";
       ok_event Sample.context "Fetched all the fields in the DOM"]
  ∧ (Sample.no_fields Sample.hello_page true "logs" = PyNone →
     (get_dom_with_content_type Sample.no_fields Sample.context
        "input_fields" w).1
     = Return (PyStr advisory)).
Proof.
  apply (all_fields_none_is_returned Sample.no_fields Sample.context
           (Sample.world_with (Some Sample.hello_page) true) Sample.hello_page);
    reflexivity.
Defined.

(** ** Repeated text extraction *)

(** Calls on a page whose script completes, with a writable artifact:
    every call returns the same string, the page stays the same, and from
    the first call on the file system is the old one with the artifact
    holding that string. *)
Lemma call_text_only_stable
    (accessibility_info : Dom.Page → bool → string → pyval)
    (context : AgentContext) (p : Dom.Page) (s : string) (n : nat) (w : World) :
  current_page w = Some p →
  Dom.filtered_text_script p = (p, Dom.Normal s) →
  can_write w (text_only_dom context) = true →
  let rs := call_text_only accessibility_info context n w in
  rs.1 = replicate n (Return (PyStr s))
  ∧ current_page rs.2 = Some p
  ∧ files rs.2 = match n with
                 | O => files w
                 | S _ => <[text_only_dom context := s]> (files w)
                 end.
Proof.
  revert w. induction n as [|k IH]; intros w Hp Hs Hw; simpl; [done|].
  rewrite (tool_text_only_ok _ _ w p s Hp Hs Hw). simpl.
  match goal with
  | |- context [call_text_only _ _ k ?w1] =>
      destruct (IH w1 eq_refl Hs Hw) as (Hout & Hpage & Hfiles)
  end.
  rewrite Hout, Hpage, Hfiles. simpl.
  repeat split. destruct k; [done|]. apply insert_insert_eq.
Qed.

(** C8: when a [text_only] call returns, any number of further calls on
    the page it leaves return the same value, and after all of them the
    file system is the one the first call left: the artifact is
    overwritten with the same content, nothing is added. *)
Theorem text_only_idempotent
    (accessibility_info : Dom.Page → bool → string → pyval)
    (context : AgentContext) (w w1 : World) (v : pyval) (n : nat) :
  get_dom_with_content_type accessibility_info context "text_only" w
  = (Return v, w1) →
  let rs := call_text_only accessibility_info context (S n) w in
  rs.1 = replicate (S n) (Return v)
  ∧ files rs.2 = files w1
  ∧ files rs.2 !! text_only_dom context
    = match v with PyStr s => Some s | _ => None end
  ∧ current_page rs.2 = current_page w.
Proof.
  intros Hrun rs. subst rs.
  destruct (tool_text_only_returns_inv _ _ _ _ _ Hrun) as (p & s & Hp & Hs & Hw & ->).
  rewrite (tool_text_only_ok _ _ w p s Hp Hs Hw) in Hrun.
  injection Hrun as <-.
  destruct (call_text_only_stable accessibility_info context p s (S n) w Hp Hs Hw)
    as (Hout & Hpage & Hfiles).
  rewrite Hout, Hpage, Hfiles, Hp. simpl.
  by rewrite lookup_insert_eq.
Qed.

Lemma text_only_idempotent_witness :
  let w := Sample.world_with (Some Sample.hello_page) true in
  let rs := call_text_only Sample.no_fields Sample.context 3 w in
  rs.1 = replicate 3 (Return (PyStr "Hello Other Alt Texts in the page: Logo"))
  ∧ files rs.2
    = files (get_dom_with_content_type Sample.no_fields Sample.context
               "text_only" w).2
  ∧ files rs.2 !! text_only_dom Sample.context
    = Some "Hello Other Alt Texts in the page: Logo"
  ∧ current_page rs.2 = Some Sample.hello_page.
Proof.
  apply (text_only_idempotent Sample.no_fields Sample.context
           (Sample.world_with (Some Sample.hello_page) true)
           (get_dom_with_content_type Sample.no_fields Sample.context "text_only"
              (Sample.world_with (Some Sample.hello_page) true)).2
           (PyStr "Hello Other Alt Texts in the page: Logo") 2).
  reflexivity.
Defined.

(** C10: a [text_only] call returns exactly when there is an active page,
    its script completes and the artifact can be written; the string it
    then returns contains the label "Other Alt Texts in the page: ", with
    or without images, and is never empty; on a page with no body text, no
    root text and no image it is " Other Alt Texts in the page: ". *)
Theorem text_only_always_has_label
    (accessibility_info : Dom.Page → bool → string → pyval)
    (context : AgentContext) (w : World) (p : Dom.Page) (t : string) :
  current_page w = Some p →
  Dom.read_text p (Dom.filtered_dom p) = Dom.Normal t →
  can_write w (text_only_dom context) = true →
  let r := get_dom_with_content_type accessibility_info context "text_only" w in
  ∃ s, r.1 = Return (PyStr s)
       ∧ contains s "Other Alt Texts in the page: "
       ∧ s ≠ ""
       ∧ (Dom.image_alts (Dom.elements p) = [] →
          s = t +:+ " Other Alt Texts in the page: ")
       ∧ (∀ b root,
            Dom.body_innerText p (Dom.filtered_dom p) = Dom.Normal b →
            Dom.truthy b = false →
            Dom.documentElement_innerText p (Dom.filtered_dom p) = Dom.Normal root →
            Dom.truthy root = false →
            Dom.image_alts (Dom.elements p) = [] →
            s = " Other Alt Texts in the page: ").
Proof.
  intros Hp Ht Hw r. subst r.
  pose proof (DomFacts.filtered_text_script_normal p t Ht) as Hs.
  rewrite (tool_text_only_ok _ _ w p _ Hp Hs Hw). simpl.
  eexists. split; [reflexivity|].
  split; [apply text_contains_label|].
  split; [apply text_never_empty|].
  split.
  - intros ->. reflexivity.
  - intros b root Hb Hbf Hr Hrf ->.
    rewrite (read_text_blank p _ b root Hb Hbf Hr Hrf) in Ht.
    by injection Ht as <-.
Qed.

Lemma text_only_always_has_label_witness :
  let w := Sample.world_with (Some Sample.blank_page) true in
  let r := get_dom_with_content_type Sample.no_fields Sample.context
             "text_only" w in
  ∃ s, r.1 = Return (PyStr s)
       ∧ contains s "Other Alt Texts in the page: "
       ∧ s ≠ ""
       ∧ s = " Other Alt Texts in the page: ".
Proof.
  destruct (text_only_always_has_label Sample.no_fields Sample.context
              (Sample.world_with (Some Sample.blank_page) true)
              Sample.blank_page "" eq_refl eq_refl eq_refl)
    as (s & Hr & Hc & Hne & _ & Hblank).
  exists s. repeat split; try assumption.
  apply (Hblank None (Some "")); reflexivity.
Defined.

(** * Further properties of the page script *)

Module ScriptFacts.
Import Dom.

Lemma elem_of_cons_dec {A : Type} (j i : nat) (rest : list nat) (x y : A) :
  (if decide (j ∈ i :: rest) then x else y)
  = if decide (j = i) then x else if decide (j ∈ rest) then x else y.
Proof.
  destruct (decide (j = i)) as [->|Hne].
  - by rewrite decide_True by apply list_elem_of_here.
  - destruct (decide (j ∈ rest)) as [Hin|Hnin].
    + by rewrite decide_True by by apply list_elem_of_further.
    + rewrite decide_False; [done|].
      intros [?|?]%elem_of_cons; done.
Qed.

(** The store after the inner loop, element by element. *)
Lemma hide_elements_lookup (refs : list nat) (st : list StyleEntry * list Element)
    (j : nat) :
  (hide_elements refs st).2 !! j
  = if decide (j ∈ refs) then set_visibility "hidden" <$> st.2 !! j else st.2 !! j.
Proof.
  revert st. induction refs as [|i rest IH]; intros st.
  - done.
  - cbn [hide_elements]. rewrite elem_of_cons_dec.
    destruct (st.2 !! i) as [e|] eqn:He; rewrite IH; clear IH; cbn [snd].
    + rewrite list_lookup_alter.
      destruct (decide (i = j)) as [<-|Hne].
      * rewrite He, (decide_True (P := i = i)) by done. simpl. by case_decide.
      * rewrite (decide_False (P := j = i)) by done. by case_decide.
    + destruct (decide (i = j)) as [<-|Hne].
      * rewrite He, (decide_True (P := i = i)) by done. simpl. by case_decide.
      * rewrite (decide_False (P := j = i)) by done. by case_decide.
Qed.

Lemma elem_of_querySelectorAll (sel : selector) (dom : list Element) (j : nat) :
  j ∈ querySelectorAll sel dom ↔ ∃ e, dom !! j = Some e ∧ selects sel e = true.
Proof.
  unfold querySelectorAll, selects_at.
  rewrite list_elem_of_filter, elem_of_seq. split.
  - intros [Hsel _]. destruct (dom !! j) as [e|]; [|done].
    exists e. split; [done|]. by apply Is_true_true.
  - intros (e & He & Hsel). rewrite He. split; [by apply Is_true_true|].
    apply lookup_lt_Some in He. lia.
Qed.

Lemma filtered_dom_fmap (p : Page) :
  filtered_dom p = hide_if_overlay <$> elements p.
Proof.
  apply list_eq. intros j.
  unfold filtered_dom, hidden_state, selectorsToFilter. cbn [hide_selectors].
  rewrite hide_elements_lookup. cbn [snd]. rewrite list_lookup_fmap.
  case_decide as Hin.
  - apply elem_of_querySelectorAll in Hin as (e & He & Hsel).
    rewrite He. simpl. unfold hide_if_overlay. by rewrite Hsel.
  - destruct (elements p !! j) as [e|] eqn:He; [|done]. simpl.
    unfold hide_if_overlay.
    destruct (selects (ById "agente-overlay") e) eqn:Hsel; [|done].
    destruct Hin. apply elem_of_querySelectorAll. by exists e.
Qed.

Lemma hide_elements_entries (refs : list nat) (dom : list Element) :
  NoDup refs → (∀ i, i ∈ refs → is_Some (dom !! i)) →
  (hide_elements refs ([], dom)).1 = original_style dom <$> refs.
Proof.
  revert dom. induction refs as [|i rest IH]; intros dom Hnd Hin; [done|].
  apply NoDup_cons in Hnd as [Hi Hnd].
  destruct (Hin i (list_elem_of_here i rest)) as [e He].
  cbn [hide_elements snd fst]. rewrite He, app_nil_l.
  rewrite DomFacts.hide_elements_acc. cbn [fst].
  rewrite (DomFacts.hide_elements_other _ rest i dom Hi). cbn [fst].
  rewrite IH; [|done|].
  - simpl. unfold original_style at 2. by rewrite He.
  - intros j Hj. apply Hin. by apply list_elem_of_further.
Qed.

(** X2: the script records one entry for each element with the id of the
    overlay, in document order, holding the visibility the element had
    before the script touched it. *)
Theorem original_styles_recorded (p : Page) :
  (hidden_state p).1
  = original_style (elements p)
      <$> querySelectorAll (ById "agente-overlay") (elements p).
Proof.
  unfold hidden_state, selectorsToFilter. cbn [hide_selectors snd].
  apply hide_elements_entries; [apply DomFacts.querySelectorAll_NoDup|].
  intros i (e & He & _)%elem_of_querySelectorAll. by exists e.
Qed.

(** X1: while the text and the images are read, exactly the elements with
    the id of the overlay are hidden; every other element, and every
    attribute other than the visibility, is as the page has it. *)
Theorem filtered_dom_hides_overlay (p : Page) :
  filtered_dom p = hide_if_overlay <$> elements p
  ∧ ∀ i e, elements p !! i = Some e →
      ∃ e', filtered_dom p !! i = Some e'
            ∧ tag e' = tag e ∧ id e' = id e ∧ alt e' = alt e
            ∧ style_visibility e'
              = if String.eqb (id e) "agente-overlay" then "hidden"
                else style_visibility e.
Proof.
  split; [apply filtered_dom_fmap|].
  intros i e He. rewrite filtered_dom_fmap, list_lookup_fmap, He. simpl.
  eexists. split; [reflexivity|]. unfold hide_if_overlay. simpl.
  by destruct (String.eqb (id e) "agente-overlay").
Qed.

Lemma image_alts_from (pre dom : list Element) :
  (λ i, default "" (alt <$> (pre ++ dom)%list !! i))
    <$> filter (λ i, selects_at (ByTag "img") (pre ++ dom)%list i)
          (seq (length pre) (length dom))
  = alt <$> filter (λ e, tag e = "img") dom.
Proof.
  revert pre. induction dom as [|e d IH]; intros pre; [done|].
  cbn [length seq]. rewrite !filter_cons.
  assert ((pre ++ e :: d)%list !! length pre = Some e) as He
    by apply list_lookup_middle, eq_refl.
  specialize (IH (pre ++ [e])%list).
  rewrite <- app_assoc, length_app in IH. cbn [length app] in IH.
  rewrite Nat.add_1_r in IH.
  assert (selects_at (ByTag "img") (pre ++ e :: d)%list (length pre)
          = String.eqb (tag e) "img") as Hsel
    by (unfold selects_at; by rewrite He).
  destruct (String.eqb (tag e) "img") eqn:Htag.
  - apply String.eqb_eq in Htag.
    rewrite decide_True by by rewrite Hsel.
    rewrite (decide_True (P := tag e = "img")) by done.
    rewrite !fmap_cons, He, IH. done.
  - apply String.eqb_neq in Htag.
    rewrite decide_False by (rewrite Hsel; exact (λ H, H)).
    rewrite (decide_False (P := tag e = "img")) by done.
    apply IH.
Qed.

(** X3: the alternative texts the script joins are those of the [img]
    elements of the page, one for each of them, empty ones included, in
    document order; hiding the overlay does not change them. *)
Theorem image_alts_in_document_order (p : Page) :
  image_alts (filtered_dom p) = alt <$> filter (λ e, tag e = "img") (elements p).
Proof.
  rewrite DomFacts.image_alts_filtered. apply (image_alts_from [] (elements p)).
Qed.

End ScriptFacts.

(** * Further properties of the tool *)

Lemma content_type_cases (content_type : string) :
  content_type = "all_fields" ∨ content_type = "input_fields"
  ∨ content_type = "text_only"
  ∨ (content_type ≠ "all_fields" ∧ content_type ≠ "input_fields"
     ∧ content_type ≠ "text_only").
Proof.
  destruct (decide (content_type = "all_fields")); [by left|].
  destruct (decide (content_type = "input_fields")); [by right; left|].
  destruct (decide (content_type = "text_only")); [by right; right; left|].
  by right; right; right.
Qed.

(** Rewrites the call in the goal by the path it takes: all fields, the
    advisory return, input fields, text written, text not written, script
    thrown, unsupported content type, no page. *)
Ltac by_paths content_type w :=
  let p := fresh "p" in
  let Hp := fresh "Hp" in
  destruct (current_page w) as [p|] eqn:Hp;
  [ destruct (content_type_cases content_type)
      as [->|[->|[->|(?Ha & ?Hi & ?Ht)]]];
    [ rewrite (tool_all_fields _ _ _ p Hp)
    | rewrite (tool_input_fields _ _ _ p Hp);
      destruct (is_None _) eqn:?Hnone
    | rewrite (tool_text_only _ _ _ p Hp);
      destruct (Dom.filtered_text_script p).2 eqn:?Hscript;
      [ destruct (can_write w _) eqn:?Hwrite | ]
    | rewrite (tool_unsupported _ _ _ _ p Hp) by assumption ]
  | rewrite (tool_no_page _ _ _ _ Hp) ];
  cbn [fst snd trace files current_page add_effect]; unfold text_trace.

Ltac in_list :=
  repeat first [apply list_elem_of_here | apply list_elem_of_further].

Ltac not_in_list :=
  let H := fresh in
  intros H; repeat (apply elem_of_cons in H as [H|H]; [discriminate H|]);
  by apply elem_of_nil in H.

(** X4: with an active page, whatever the content type, the readiness
    gate is waited on once, for 2000 ms, right after the ACT_START event
    and before anything else the call does. *)
Theorem readiness_gate_once
    (accessibility_info : Dom.Page → bool → string → pyval)
    (context : AgentContext) (content_type : string) (w : World) (p : Dom.Page) :
  current_page w = Some p →
  let r := get_dom_with_content_type accessibility_info context content_type w in
  ∃ rest,
    trace r.2 = (trace w ++ [Emit (start_event context content_type);
                             WaitForNonLoadingDomState 2000] ++ rest)%list
    ∧ ∀ timeout, WaitForNonLoadingDomState timeout ∉ rest.
Proof.
  intros Hpage r. subst r. by_paths content_type w; try discriminate;
    (eexists; split; [rewrite <- ?app_assoc; reflexivity|]);
    intros timeout; not_in_list.
Qed.

Lemma readiness_gate_once_witness :
  let w := Sample.world_with (Some Sample.hello_page) true in
  let r := get_dom_with_content_type Sample.one_button Sample.context
             "text_only" w in
  ∃ rest,
    trace r.2 = ([Emit (start_event Sample.context "text_only");
                  WaitForNonLoadingDomState 2000] ++ rest)%list
    ∧ ∀ timeout, WaitForNonLoadingDomState timeout ∉ rest.
Proof.
  apply (readiness_gate_once Sample.one_button Sample.context "text_only"
           (Sample.world_with (Some Sample.hello_page) true) Sample.hello_page).
  reflexivity.
Defined.

(** X5: whatever the content type and the world, the bus receives the
    ACT_START event and then at most one more event; that event is ACT_OK
    with the success message of the content type, and it is only sent by
    a call that returns. *)
Theorem events_start_then_ok
    (accessibility_info : Dom.Page → bool → string → pyval)
    (context : AgentContext) (content_type : string) (w : World) :
  let r := get_dom_with_content_type accessibility_info context content_type w in
  events (trace r.2)
  = (events (trace w) ++ [start_event context content_type])%list
  ∨ ∃ v msg,
      r.1 = Return v ∧ msg ∈ success_messages
      ∧ events (trace r.2)
        = (events (trace w) ++ [start_event context content_type;
                                ok_event context msg])%list.
Proof.
  intros r. subst r. by_paths content_type w;
    rewrite !events_app, <- ?app_assoc; simpl;
    first [ by left
          | right; eexists _, _; split; [reflexivity|];
            split; [|reflexivity]; unfold success_messages; in_list ].
Qed.

(** X6: a call that returns without the ACT_OK event is an [input_fields]
    call returning the advisory string. *)
Theorem only_advisory_return_lacks_ok
    (accessibility_info : Dom.Page → bool → string → pyval)
    (context : AgentContext) (content_type : string) (w : World) (v : pyval) :
  let r := get_dom_with_content_type accessibility_info context content_type w in
  r.1 = Return v →
  events (trace r.2)
  = (events (trace w) ++ [start_event context content_type])%list →
  content_type = "input_fields" ∧ v = PyStr advisory.
Proof.
  intros r. subst r. by_paths content_type w;
    rewrite !events_app, <- ?app_assoc; simpl;
    intros Hret Hev; try discriminate Hret;
    try (apply app_inv_head in Hev; discriminate Hev).
  by injection Hret as <-.
Qed.

Lemma only_advisory_return_lacks_ok_witness :
  "input_fields" = "input_fields" ∧ PyStr advisory = PyStr advisory.
Proof.
  apply (only_advisory_return_lacks_ok Sample.one_button Sample.context
           "input_fields" (Sample.world_with (Some Sample.hello_page) true)
           (PyStr advisory)); reflexivity.
Defined.

Lemma is_None_false (v : pyval) : is_None v = false ↔ v ≠ PyNone.
Proof. destruct v; simpl; split; (done || congruence). Qed.



(** X8: an [input_fields] call never returns [None]. *)
Theorem input_fields_never_returns_None
    (accessibility_info : Dom.Page → bool → string → pyval)
    (context : AgentContext) (w w' : World) (v : pyval) :
  get_dom_with_content_type accessibility_info context "input_fields" w
  = (Return v, w') →
  v ≠ PyNone.
Proof.
  destruct (current_page w) as [p|] eqn:Hp.
  - rewrite (tool_input_fields _ _ _ p Hp).
    destruct (is_None _) eqn:Hnone; intros [= <- _]; [done|].
    by apply is_None_false.
  - by rewrite tool_no_page.
Qed.

Lemma input_fields_never_returns_None_witness :
  PyStr advisory ≠ PyNone.
Proof.
  apply (input_fields_never_returns_None Sample.no_fields Sample.context
           (Sample.world_with (Some Sample.hello_page) true)
           (get_dom_with_content_type Sample.no_fields Sample.context
              "input_fields"
              (Sample.world_with (Some Sample.hello_page) true)).2
           (PyStr advisory)).
  reflexivity.
Defined.



(** X10: a call only adds to the trace, and it asks the accessibility
    routine for all the fields only in an [all_fields] call, for the input
    fields only in an [input_fields] call, always with the log directory
    of the context, and never in a [text_only] call. *)
Theorem accessibility_called_as_asked
    (accessibility_info : Dom.Page → bool → string → pyval)
    (context : AgentContext) (content_type : string) (w : World) :
  let r := get_dom_with_content_type accessibility_info context content_type w in
  ∃ added,
    trace r.2 = (trace w ++ added)%list
    ∧ ∀ only_input_fields log_dir,
        GetAccessibilityInfo only_input_fields log_dir ∈ added →
        log_dir = path_manager_logs context
        ∧ content_type
          = if only_input_fields then "input_fields" else "all_fields".
Proof.
  intros r. subst r. by_paths content_type w;
    rewrite <- ?app_assoc;
    (eexists; split; [reflexivity|]); intros b d Hin;
    repeat (apply elem_of_cons in Hin as [Hin|Hin];
            [try discriminate Hin; by injection Hin as -> ->|]);
    by apply elem_of_nil in Hin.
Qed.



(** X12: when reading the text throws in the page, a [text_only] call
    raises that error; no file is written, the bus has received the
    ACT_START event only, and the page is left with the elements of the
    overlay hidden. *)
Theorem script_error_is_raised
    (accessibility_info : Dom.Page → bool → string → pyval)
    (context : AgentContext) (w : World) (p : Dom.Page) (m : string) :
  current_page w = Some p →
  Dom.read_text p (Dom.filtered_dom p) = Dom.Throw m →
  let r := get_dom_with_content_type accessibility_info context "text_only" w in
  r.1 = Raise (PlaywrightError m)
  ∧ files r.2 = files w
  ∧ events (trace r.2)
    = (events (trace w) ++ [start_event context "text_only"])%list
  ∧ current_page r.2
    = Some (Dom.with_elements p (hide_if_overlay <$> Dom.elements p)).
Proof.
  intros Hp Ht r. subst r.
  rewrite (tool_text_only _ _ _ p Hp).
  rewrite (DomFacts.filtered_text_script_throw p m Ht). simpl.
  unfold text_trace. rewrite events_app. simpl.
  by rewrite ScriptFacts.filtered_dom_fmap.
Qed.

Lemma script_error_is_raised_witness :
  let w := Sample.world_with (Some Sample.throwing_page) true in
  let r := get_dom_with_content_type Sample.no_fields Sample.context
             "text_only" w in
  r.1 = Raise (PlaywrightError "innerText")
  ∧ files r.2 = ∅
  ∧ events (trace r.2) = [start_event Sample.context "text_only"]
  ∧ current_page r.2
    = Some (Dom.with_elements Sample.throwing_page
              (hide_if_overlay <$> Dom.elements Sample.throwing_page)).
Proof.
  apply (script_error_is_raised Sample.no_fields Sample.context
           (Sample.world_with (Some Sample.throwing_page) true)
           Sample.throwing_page "innerText"); reflexivity.
Defined.




(** X14: when a [text_only] call returns, it returns a string, and
    [text_only_dom.txt] of the log directory holds exactly that string. *)
Theorem returned_text_is_logged
    (accessibility_info : Dom.Page → bool → string → pyval)
    (context : AgentContext) (w w' : World) (v : pyval) :
  get_dom_with_content_type accessibility_info context "text_only" w
  = (Return v, w') →
  ∃ s, v = PyStr s
       ∧ files w' !! path_join (path_manager_logs context) "text_only_dom.txt"
         = Some s.
Proof.
  intros Hrun.
  destruct (tool_text_only_returns_inv _ _ _ _ _ Hrun) as (p & s & Hp & Hs & Hw & ->).
  rewrite (tool_text_only_ok _ _ w p s Hp Hs Hw) in Hrun.
  injection Hrun as <-. exists s. split; [done|]. simpl.
  unfold text_only_dom. by rewrite lookup_insert_eq.
Qed.

Lemma returned_text_is_logged_witness :
  let w := Sample.world_with (Some Sample.root_text_page) true in
  let w' := (get_dom_with_content_type Sample.no_fields Sample.context
               "text_only" w).2 in
  ∃ s, PyStr "Title Other Alt Texts in the page: Logo" = PyStr s
       ∧ files w' !! "logs/text_only_dom.txt" = Some s.
Proof.
  apply (returned_text_is_logged Sample.no_fields Sample.context
           (Sample.world_with (Some Sample.root_text_page) true)).
  reflexivity.
Defined.

(** X15: when the body renders some text, the text of the root element is
    not read: the call returns the body text followed by the summary of
    the alternative texts whatever the getter of the root would do. *)
Theorem body_text_wins
    (accessibility_info : Dom.Page → bool → string → pyval)
    (context : AgentContext) (w : World) (p : Dom.Page) (b : string) :
  current_page w = Some p →
  Dom.body_innerText p (Dom.filtered_dom p) = Dom.Normal (Some b) →
  b ≠ "" →
  can_write w (path_join (path_manager_logs context) "text_only_dom.txt") = true →
  let r := get_dom_with_content_type accessibility_info context "text_only" w in
  r.1 = Return (PyStr (b +:+ " Other Alt Texts in the page: "
                         +:+ join " " (Dom.image_alts (Dom.elements p)))).
Proof.
  intros Hp Hb Hne Hw r. subst r.
  assert (Dom.read_text p (Dom.filtered_dom p) = Dom.Normal b) as Ht.
  { unfold Dom.read_text. rewrite Hb. simpl.
    apply String.eqb_neq in Hne. by rewrite Hne. }
  pose proof (DomFacts.filtered_text_script_normal p b Ht) as Hs.
  by rewrite (tool_text_only_ok _ _ w p _ Hp Hs Hw).
Qed.

Lemma body_text_wins_witness :
  let w := Sample.world_with (Some Sample.root_throwing_page) true in
  let r := get_dom_with_content_type Sample.no_fields Sample.context
             "text_only" w in
  r.1 = Return (PyStr "Hello Other Alt Texts in the page: Logo").
Proof.
  apply (body_text_wins Sample.no_fields Sample.context
           (Sample.world_with (Some Sample.root_throwing_page) true)
           Sample.root_throwing_page "Hello"); (reflexivity || discriminate).
Defined.

(** X16: when the body is absent or renders no text at all, the text of
    the root element is what the call returns before the summary of the
    alternative texts; a body that is there but empty counts as absent. *)
Theorem empty_body_falls_back_to_root
    (accessibility_info : Dom.Page → bool → string → pyval)
    (context : AgentContext) (w : World) (p : Dom.Page)
    (b : option string) (root : string) :
  current_page w = Some p →
  Dom.body_innerText p (Dom.filtered_dom p) = Dom.Normal b →
  b = None ∨ b = Some "" →
  Dom.documentElement_innerText p (Dom.filtered_dom p) = Dom.Normal (Some root) →
  can_write w (path_join (path_manager_logs context) "text_only_dom.txt") = true →
  let r := get_dom_with_content_type accessibility_info context "text_only" w in
  r.1 = Return (PyStr (root +:+ " Other Alt Texts in the page: "
                         +:+ join " " (Dom.image_alts (Dom.elements p)))).
Proof.
  intros Hp Hb Hempty Hr Hw r. subst r.
  assert (Dom.read_text p (Dom.filtered_dom p) = Dom.Normal root) as Ht.
  { unfold Dom.read_text. rewrite Hb.
    assert (Dom.truthy b = false) as -> by by destruct Hempty as [->| ->].
    rewrite Hr. simpl. by destruct root. }
  pose proof (DomFacts.filtered_text_script_normal p root Ht) as Hs.
  by rewrite (tool_text_only_ok _ _ w p _ Hp Hs Hw).
Qed.

Lemma empty_body_falls_back_to_root_witness :
  let w := Sample.world_with (Some Sample.root_text_page) true in
  let r := get_dom_with_content_type Sample.no_fields Sample.context
             "text_only" w in
  r.1 = Return (PyStr "Title Other Alt Texts in the page: Logo").
Proof.
  apply (empty_body_falls_back_to_root Sample.no_fields Sample.context
           (Sample.world_with (Some Sample.root_text_page) true)
           Sample.root_text_page (Some "") "Title");
    first [reflexivity | by right].
Defined.
